(** * The p2p2 Swarm: a shallow embedding of [swarmImpl] and its handlers

    The Go package [p2p2] keeps every piece of mutable peer and connection
    state in one [swarmImpl] value that is only touched by the handlers the
    event loop [beginProcessingEvents] dispatches.  The embedding below
    follows the source function by function:

    - the four tables are finite maps keyed by strings ([gmap string _]);
    - a [RemoteNode] is a Go interface value, i.e. either [nil] or a
      reference to an object; the objects live in a store, so that the two
      tables that index remote nodes alias the same object;
    - everything a handler does to the outside (closing a connection,
      asking the handshake protocol for a session, logging, sending on a
      callback channel, starting a goroutine) is appended to a trace of
      [Effect]s;
    - the collaborators declared in other source files ([NewNetwork],
      [NewDemuxer], [proto.Unmarshal], the address check of
      [NewRemoteNode]) are parameters of the development. *)

From stdpp Require Import base option list strings gmap fin_maps.
From Stdlib Require Import Strings.Byte.

Open Scope string_scope.
Open Scope list_scope.

(** ** Plain data *)

(** Go's [error] interface: [None] is [nil]. *)
Definition error := string.

Definition bytes := list byte.

(** [chan NodeResp]: a channel is identified by a number. *)
Definition chan := nat.

(** [type SendMessageReq struct { remoteNodeId string; reqId string; msg []byte }] *)
Module SendMessageReq.
Record t := mk { remoteNodeId : string; reqId : string; msg : bytes }.
End SendMessageReq.

(** [type NodeReq struct { remoteNodeId string; remoteNodeIp string; callback chan NodeResp }] *)
Module NodeReq.
Record t := mk { remoteNodeId : string; remoteNodeIp : string; callback : chan }.
End NodeReq.

(** [type NodeResp struct { remoteNodeId string; err error }] *)
Module NodeResp.
Record t := mk { remoteNodeId : string; err : option error }.
End NodeResp.

(** Modelled from the spec: the [Connection] interface is declared outside
    this file.  The spec gives it a connection id (unique per physical link)
    and a remote address; the handlers use [Id()] and [Close()] only.
    [Close()] is an effect, see [EvClose]. *)
Module Connection.
Record t := mk { Id : string; remoteAddr : string }.
End Connection.

(** Modelled from the spec: [ConnectionMessage] is declared outside this
    file; the handler reads its fields [Connection] and [Message]
    (connection plus raw bytes of one whole frame). *)
Module ConnectionMessage.
Record t := mk { Connection : Connection.t; Message : bytes }.
End ConnectionMessage.

(** Modelled from the spec: [pb.CommonMessageData] is generated code that is
    not part of this file.  The wire envelope has a [payload] field of
    bytes that may be empty; it is the only field the handler reads. *)
Module CommonMessageData.
Record t := mk { Payload : bytes }.
End CommonMessageData.

(** Modelled from the spec: a [NetworkSession] has a session id, shared key
    material and an authenticated flag. *)
Module NetworkSession.
Record t := mk { sessionId : string; key : bytes; IsAuthenticated : bool }.
End NetworkSession.

(** ** Remote nodes and the object store *)

(** A location in the store of remote-node objects. *)
Definition loc := nat.

(** A value of the interface type [RemoteNode]: [nil] or a reference. *)
Inductive RemoteNode : Type :=
| nilNode : RemoteNode
| nodeRef : loc → RemoteNode.

Definition isNil (n : RemoteNode) : bool :=
  match n with nilNode => true | nodeRef _ => false end.

(** Modelled from the spec: the object behind a [RemoteNode] reference,
    which is declared outside this file.  It carries the identity (peer id,
    network address) and zero or one [NetworkSession]. *)
Module RemoteNodeData.
Record t := mk { id : string; ip : string; session : option NetworkSession.t }.
End RemoteNodeData.

(** The store: the object at location [l] is the [l]-th element; allocation
    appends. *)
Definition store := list RemoteNodeData.t.

Definition deref (h : store) (n : RemoteNode) : option RemoteNodeData.t :=
  match n with
  | nilNode => None
  | nodeRef l => h !! l
  end.

(** The session reference currently held by the object [n] points to. *)
Definition sessionOf (h : store) (n : RemoteNode) : option NetworkSession.t :=
  deref h n ≫= RemoteNodeData.session.

(** Modelled from the spec: [RemoteNode.HasSession()], declared outside this
    file, tells whether the node currently holds a session. *)
Definition HasSession (h : store) (n : RemoteNode) : bool :=
  bool_decide (is_Some (sessionOf h n)).

(** ** Effects *)

Inductive LogLevel := LvlInfo | LvlWarning | LvlError.

(** An argument of a log call. *)
Inductive LogArg :=
| ArgBool : bool → LogArg
| ArgError : error → LogArg.

Inductive Effect : Type :=
| EvLog : LogLevel → string → list LogArg → Effect
    (** [log.Info(fmt, args...)], [log.Warning], [log.Error] *)
| EvClose : Connection.t → Effect
    (** [c.Close()] *)
| EvCreateSession : RemoteNode → Effect
    (** [s.localNode.HandshakeProtocol().CreateSession(n)] *)
| EvCallback : chan → NodeResp.t → Effect
    (** [ch <- resp] on a [chan NodeResp] *)
| EvGoProcessEvents : Effect.
    (** [go s.beginProcessingEvents()] *)

(** Modelled from the spec: [RemoteNode.GetSession(fn)], declared outside
    this file, invokes [fn] with the current session only if that session is
    authenticated.  [fn] is given by the effects it performs. *)
Definition GetSession (h : store) (n : RemoteNode)
    (fn : NetworkSession.t → list Effect) : list Effect :=
  match sessionOf h n with
  | Some s => if NetworkSession.IsAuthenticated s then fn s else []
  | None => []
  end.

(** Go's [m[k]] on a [map[string]RemoteNode]: the zero value [nil] when the
    key is absent. *)
Definition index (m : gmap string RemoteNode) (k : string) : RemoteNode :=
  default nilNode (m !! k).

(** ** The swarm *)

(** The collaborators of the swarm whose declarations live in other source
    files of the package: the interface types, and the functions the swarm
    calls. *)
Class Collaborators : Type := {
  Network : Type;
  LocalNode : Type;
  Demuxer : Type;
  ConnectionError : Type;
  MessageSendError : Type;
  (** [NewNetwork(tcpAddress) (Network, error)] *)
  NewNetwork : string → option Network * option error;
  (** [NewDemuxer() Demuxer] *)
  NewDemuxer : Demuxer;
  (** [proto.Unmarshal(buf, c)]: the decoded envelope, or the error *)
  Unmarshal : bytes → CommonMessageData.t + error;
  (** the check [NewRemoteNode] makes on the peer id and the address before
      it builds the object: [None] when they are well formed *)
  checkRemoteNode : string → string → option error
}.

Section Swarm.

Context {E : Collaborators}.

(** [type swarmImpl struct].  The request channels and the kill channel are
    the inputs of the event loop, see [Event]. *)
Record swarmImpl := mkSwarm {
  network : option Network;
  localNode : LocalNode;
  demuxer : Demuxer;
  peers : gmap string RemoteNode;
  connections : gmap string Connection.t;
  peersByConnection : gmap string RemoteNode;
  pendingOutgoingMessages : gmap string SendMessageReq.t
}.

(** What a handler can read and change: the swarm, the store of remote-node
    objects, and the trace of effects performed so far (oldest first). *)
Record world := mkWorld {
  swarm : swarmImpl;
  nodes : store;
  effects : list Effect
}.

Definition setSwarm (s : swarmImpl) (w : world) : world :=
  mkWorld s (nodes w) (effects w).

Definition setNodes (h : store) (w : world) : world :=
  mkWorld (swarm w) h (effects w).

Definition emit (es : list Effect) (w : world) : world :=
  mkWorld (swarm w) (nodes w) (effects w ++ es).

Definition setPeers (m : gmap string RemoteNode) (s : swarmImpl) : swarmImpl :=
  mkSwarm (network s) (localNode s) (demuxer s) m (connections s)
          (peersByConnection s) (pendingOutgoingMessages s).

Definition setConnections (m : gmap string Connection.t) (s : swarmImpl) : swarmImpl :=
  mkSwarm (network s) (localNode s) (demuxer s) (peers s) m
          (peersByConnection s) (pendingOutgoingMessages s).

Definition setPeersByConnection (m : gmap string RemoteNode) (s : swarmImpl) : swarmImpl :=
  mkSwarm (network s) (localNode s) (demuxer s) (peers s) (connections s)
          m (pendingOutgoingMessages s).

Definition setPending (m : gmap string SendMessageReq.t) (s : swarmImpl) : swarmImpl :=
  mkSwarm (network s) (localNode s) (demuxer s) (peers s) (connections s)
          (peersByConnection s) m.

(** *** [NewSwarm] *)

(** [func NewSwarm(tcpAddress string, l LocalNode) (Swarm, error)]: the
    returned pair, and the effects of the call. *)
Definition NewSwarm (tcpAddress : string) (l : LocalNode)
    : (option swarmImpl * option error) * list Effect :=
  let '(n, err) := NewNetwork tcpAddress in
  match err with
  | Some e =>
      ((None, err),
       [EvLog LvlError "can't create swarm without a network: %v" [ArgError e]])
  | None =>
      let s := {| localNode := l;
                  network := n;
                  peersByConnection := ∅;
                  peers := ∅;
                  connections := ∅;
                  pendingOutgoingMessages := ∅;
                  demuxer := NewDemuxer |} in
      ((Some s, err), [EvGoProcessEvents])
  end.

(** *** [NewRemoteNode] *)

(** Modelled from the spec: [NewRemoteNode(id, ip) (RemoteNode, error)] is
    declared outside this file.  Construction fails (for instance on a
    malformed address) with an error and no node; otherwise a new object
    with that identity and no session is allocated. *)
Definition NewRemoteNode (h : store) (id ip : string)
    : store * RemoteNode * option error :=
  match checkRemoteNode id ip with
  | Some e => (h, nilNode, Some e)
  | None => (h ++ [RemoteNodeData.mk id ip None], nodeRef (length h), None)
  end.

(** *** The handlers *)

(** [func (s *swarmImpl) onConnectionRequest(req NodeReq)].

    The [remoteNode] that [:=] declares inside the first [if] is a new
    variable of the inner block ([remoteNode']); after the block the outer
    [remoteNode], the result of the table lookup, is in scope again. *)
Definition onConnectionRequest (req : NodeReq.t) (w : world) : world :=
  let remoteNode := index (peers (swarm w)) (NodeReq.remoteNodeId req) in
  let rest (w : world) : world :=
    if negb (isNil remoteNode) && HasSession (nodes w) remoteNode then
      emit (EvLog LvlInfo "We have a session with this node" []
            :: GetSession (nodes w) remoteNode (λ s,
                 [EvLog LvlInfo "Session info: %s"
                        [ArgBool (NetworkSession.IsAuthenticated s)]])) w
    else
      emit [EvCreateSession remoteNode] w in
  if isNil remoteNode then
    let '(h, remoteNode', err) :=
      NewRemoteNode (nodes w) (NodeReq.remoteNodeId req) (NodeReq.remoteNodeIp req) in
    match err with
    | Some _ => w
    | None =>
        rest (setSwarm (setPeers (<[NodeReq.remoteNodeId req := remoteNode']>
                                    (peers (swarm w))) (swarm w))
                       (setNodes h w))
    end
  else rest w.

(** [func (s *swarmImpl) onDisconnectionRequest(req NodeReq)]: empty body. *)
Definition onDisconnectionRequest (req : NodeReq.t) (w : world) : world := w.

(** [func (s *swarmImpl) onSendMessageRequest(r SendMessageReq)]. *)
Definition onSendMessageRequest (r : SendMessageReq.t) (w : world) : world :=
  setSwarm (setPending (<[SendMessageReq.reqId r := r]>
                          (pendingOutgoingMessages (swarm w))) (swarm w)) w.

(** [func (s *swarmImpl) onConnectionClosed(c Connection)]. *)
Definition onConnectionClosed (c : Connection.t) (w : world) : world :=
  let s1 := setConnections (delete (Connection.Id c) (connections (swarm w))) (swarm w) in
  let s2 := setPeersByConnection (delete (Connection.Id c) (peersByConnection s1)) s1 in
  setSwarm s2 w.

(** [func (s *swarmImpl) onRemoteClientConnected(c Connection)]: empty body. *)
Definition onRemoteClientConnected (c : Connection.t) (w : world) : world := w.

(** [func (s *swarmImpl) onRemoteClientMessage(msg ConnectionMessage)].
    Both branches of the test on [len(c.Payload)] hold comments only. *)
Definition onRemoteClientMessage (msg : ConnectionMessage.t) (w : world) : world :=
  match Unmarshal (ConnectionMessage.Message msg) with
  | inr err =>
      emit [EvLog LvlWarning "Bad request - closing connection..." [];
            EvClose (ConnectionMessage.Connection msg)] w
  | inl c =>
      if Nat.eqb (length (CommonMessageData.Payload c)) 0 then w else w
  end.

(** [func (s *swarmImpl) onConnectionError(err ConnectionError)]: empty body. *)
Definition onConnectionError (err : ConnectionError) (w : world) : world := w.

(** [func (s *swarmImpl) onMessageSendError(err MessageSendError)]: empty body. *)
Definition onMessageSendError (err : MessageSendError) (w : world) : world := w.

(** *** The event loop *)

(** What one [select] of the loop can receive, one constructor per case. *)
Inductive Event : Type :=
| Kill : bool → Event
| NewConnection : Connection.t → Event
| IncomingMessage : ConnectionMessage.t → Event
| ConnectionErr : ConnectionError → Event
| MessageSendErr : MessageSendError → Event
| ClosingConnection : Connection.t → Event
| SendMsgRequest : SendMessageReq.t → Event
| ConnectionRequest : NodeReq.t → Event
| DisconnectRequest : NodeReq.t → Event.

(** How a run of the loop over the events received so far stands: it left
    the loop ([break Loop]) with some events unconsumed, or it is back at
    the [select], waiting. *)
Inductive LoopResult : Type :=
| Terminated : world → list Event → LoopResult
| Waiting : world → LoopResult.

(** [func (s *swarmImpl) beginProcessingEvents()], run on the sequence of
    values its [select] receives. *)
Fixpoint beginProcessingEvents (evs : list Event) (w : world) : LoopResult :=
  match evs with
  | [] => Waiting w
  | Kill _ :: rest => Terminated w rest
  | NewConnection c :: rest => beginProcessingEvents rest (onRemoteClientConnected c w)
  | IncomingMessage m :: rest => beginProcessingEvents rest (onRemoteClientMessage m w)
  | ConnectionErr err :: rest => beginProcessingEvents rest (onConnectionError err w)
  | MessageSendErr err :: rest => beginProcessingEvents rest (onMessageSendError err w)
  | ClosingConnection c :: rest => beginProcessingEvents rest (onConnectionClosed c w)
  | SendMsgRequest r :: rest => beginProcessingEvents rest (onSendMessageRequest r w)
  | ConnectionRequest n :: rest => beginProcessingEvents rest (onConnectionRequest n w)
  | DisconnectRequest n :: rest => beginProcessingEvents rest (onDisconnectionRequest n w)
  end.

(** Whether the connection [c] is bound, through the peer-by-connection
    index, to a RemoteNode that holds an authenticated session. *)
Definition boundAuthenticated (w : world) (c : Connection.t) : Prop :=
  ∃ n sess,
    peersByConnection (swarm w) !! Connection.Id c = Some n
    ∧ sessionOf (nodes w) n = Some sess
    ∧ NetworkSession.IsAuthenticated sess = true.

End Swarm.

Arguments swarmImpl : clear implicits.
Arguments world : clear implicits.
Arguments Event : clear implicits.
Arguments LoopResult : clear implicits.

(** ** A concrete node, to run the handlers on *)

Module Demo.

(** A toy envelope codec: an empty frame is the empty envelope; otherwise
    the first byte announces the payload length and the payload follows. *)
Definition decode (buf : bytes) : CommonMessageData.t + error :=
  match buf with
  | [] => inl (CommonMessageData.mk [])
  | n :: rest =>
      if Nat.eqb (Byte.to_nat n) (length rest)
      then inl (CommonMessageData.mk rest)
      else inr "proto: unexpected EOF"
  end.

Definition env : Collaborators := {|
  Network := string;
  LocalNode := string;
  Demuxer := unit;
  ConnectionError := string;
  MessageSendError := string;
  NewNetwork := λ addr,
    if String.eqb addr "" then (None, Some "listen tcp: missing address")
    else (Some addr, None);
  NewDemuxer := tt;
  Unmarshal := decode;
  checkRemoteNode := λ id ip,
    if String.eqb ip "" then Some "invalid remote node address" else None
|}.

Definition emptySwarm : swarmImpl env :=
  mkSwarm (E:=env) (Some "0.0.0.0:7513") "local" tt ∅ ∅ ∅ ∅.

(** A node that knows nobody yet. *)
Definition w0 : world env := mkWorld emptySwarm [] [].

Definition c1 : Connection.t := Connection.mk "c1" "10.0.0.7:7513".

Definition sessX : NetworkSession.t :=
  NetworkSession.mk "s-1" [x2a; x07] true.

Definition reqOld : SendMessageReq.t := SendMessageReq.mk "peerX" "req-1" [x01].
Definition reqNew : SendMessageReq.t := SendMessageReq.mk "peerY" "req-1" [x02; x03].

(** A node with the peer [peerX] at location [0], holding an authenticated
    session, bound to the open connection [c1], and with [req-1] pending. *)
Definition w1 : world env :=
  mkWorld
    (mkSwarm (E:=env) (Some "0.0.0.0:7513") "local" tt
       {[ "peerX" := nodeRef 0 ]}
       {[ "c1" := c1 ]}
       {[ "c1" := nodeRef 0 ]}
       {[ "req-1" := reqOld ]})
    [RemoteNodeData.mk "peerX" "10.0.0.7:7513" (Some sessX)]
    [].

(** A frame that does not decode: it announces 5 payload bytes and carries 1. *)
Definition badMsg : ConnectionMessage.t := ConnectionMessage.mk c1 [x05; x00].

(** A frame with the two-byte payload [de ad], arriving on a connection that
    is bound to no peer. *)
Definition c2 : Connection.t := Connection.mk "c2" "10.0.0.9:7513".
Definition dataMsg : ConnectionMessage.t := ConnectionMessage.mk c2 [x02; xde; xad].

(** A connect request with a malformed (empty) address, and a well-formed one. *)
Definition badReq : NodeReq.t := NodeReq.mk "peerZ" "" 7.
Definition goodReq : NodeReq.t := NodeReq.mk "peerZ" "10.0.0.8:7513" 7.

End Demo.

(** ** The accessors, and the loop seen one event at a time *)

Section Loop.

Context {E : Collaborators}.

(** [func (s *swarmImpl) GetDemuxer() Demuxer]. *)
Definition GetDemuxer (s : swarmImpl E) : Demuxer := demuxer s.

(** [func (s *swarmImpl) LocalNode() LocalNode]; the method is named
    [GetLocalNode] here, [LocalNode] being the interface type. *)
Definition GetLocalNode (s : swarmImpl E) : LocalNode := localNode s.

(** The world a run of the loop stands in. *)
Definition resultWorld (r : LoopResult E) : world E :=
  match r with
  | Terminated w _ => w
  | Waiting w => w
  end.

(** The handler call of one case of the [select]; the kill case calls none. *)
Definition dispatch (ev : Event E) (w : world E) : world E :=
  match ev with
  | Kill _ => w
  | NewConnection c => onRemoteClientConnected c w
  | IncomingMessage m => onRemoteClientMessage m w
  | ConnectionErr err => onConnectionError err w
  | MessageSendErr err => onMessageSendError err w
  | ClosingConnection c => onConnectionClosed c w
  | SendMsgRequest r => onSendMessageRequest r w
  | ConnectionRequest n => onConnectionRequest n w
  | DisconnectRequest n => onDisconnectionRequest n w
  end.

(** The handler calls for a sequence of events, one after the other. *)
Definition handleAll (evs : list (Event E)) (w : world E) : world E :=
  foldl (λ w ev, dispatch ev w) w evs.

(** The events a run of the loop hands to a handler: those received before
    the first kill signal. *)
Fixpoint consumed (evs : list (Event E)) : list (Event E) :=
  match evs with
  | [] => []
  | Kill _ :: _ => []
  | ev :: rest => ev :: consumed rest
  end.

(** The request ids of the send requests among some events, in order. *)
Fixpoint sentIds (evs : list (Event E)) : list string :=
  match evs with
  | [] => []
  | SendMsgRequest r :: rest => SendMessageReq.reqId r :: sentIds rest
  | _ :: rest => sentIds rest
  end.

(** The events whose handlers have an empty body. *)
Definition emptyHandler (ev : Event E) : bool :=
  match ev with
  | NewConnection _ | ConnectionErr _ | MessageSendErr _ | DisconnectRequest _ => true
  | _ => false
  end.

(** Every non-nil entry of the peer table refers to an allocated object
    whose id is the key of the entry. *)
Definition peersWellFormed (w : world E) : Prop :=
  ∀ k l, peers (swarm w) !! k = Some (nodeRef l) →
         ∃ d, nodes w !! l = Some d ∧ RemoteNodeData.id d = k.

End Loop.

(** A run of events on the concrete node. *)
Module DemoRun.

Definition reqOther : SendMessageReq.t := SendMessageReq.mk "peerX" "req-2" [x09].

Definition events : list (Event Demo.env) :=
  [ ConnectionRequest Demo.goodReq;
    SendMsgRequest Demo.reqOld;
    NewConnection Demo.c2;
    IncomingMessage Demo.badMsg;
    ClosingConnection Demo.c1;
    SendMsgRequest Demo.reqNew;
    DisconnectRequest Demo.goodReq;
    SendMsgRequest reqOther;
    Kill true;
    SendMsgRequest Demo.reqOld ].

End DemoRun.

(** ** Properties of the handlers *)

Section Properties.

Context {E : Collaborators}.

Implicit Types (w : world E) (s : swarmImpl E) (evs : list (Event E)).

(** *** Frame lemmas: what the setters leave alone *)

Lemma emit_swarm es w : swarm (emit es w) = swarm w.
Proof. reflexivity. Qed.

Lemma emit_nodes es w : nodes (emit es w) = nodes w.
Proof. reflexivity. Qed.

Lemma emit_effects es w : effects (emit es w) = effects w ++ es.
Proof. reflexivity. Qed.

Lemma world_eta w : mkWorld (swarm w) (nodes w) (effects w) = w.
Proof. by destruct w. Qed.

Lemma swarm_eta s :
  mkSwarm (network s) (localNode s) (demuxer s) (peers s) (connections s)
          (peersByConnection s) (pendingOutgoingMessages s) = s.
Proof. by destruct s. Qed.

Lemma index_absent (m : gmap string RemoteNode) k :
  m !! k = None → index m k = nilNode.
Proof. intros H. unfold index. by rewrite H. Qed.

Lemma index_present (m : gmap string RemoteNode) k n :
  m !! k = Some n → index m k = n.
Proof. intros H. unfold index. by rewrite H. Qed.

(** *** Send requests *)

(** C1 (as the code has it): for every send request, also one whose reqId
    already has an entry in the pending-outgoing-message table, the send
    handler stores the request under its reqId, replacing whatever entry was
    there; every other pending entry, the other three tables, the
    remote-node objects and the effect trace are unchanged, so nothing is
    reported to the caller. *)
Theorem onSendMessageRequest_stores (r : SendMessageReq.t) w :
  let w' := onSendMessageRequest r w in
  pendingOutgoingMessages (swarm w') !! SendMessageReq.reqId r = Some r
  ∧ (∀ k, k ≠ SendMessageReq.reqId r →
       pendingOutgoingMessages (swarm w') !! k
       = pendingOutgoingMessages (swarm w) !! k)
  ∧ peers (swarm w') = peers (swarm w)
  ∧ connections (swarm w') = connections (swarm w)
  ∧ peersByConnection (swarm w') = peersByConnection (swarm w)
  ∧ nodes w' = nodes w
  ∧ effects w' = effects w.
Proof.
  cbn. split; [apply lookup_insert_eq|].
  split; [|done].
  intros k Hk. by apply lookup_insert_ne.
Qed.

(** *** Closed connections *)

(** C6: after the connection-closed handler has run for a connection [c],
    neither the connection table nor the peer-by-connection index has an
    entry for [c]'s connection id, whatever the two tables held before. *)
Theorem onConnectionClosed_purges (c : Connection.t) w :
  connections (swarm (onConnectionClosed c w)) !! Connection.Id c = None
  ∧ peersByConnection (swarm (onConnectionClosed c w)) !! Connection.Id c = None.
Proof.
  cbn. split; apply lookup_delete_eq.
Qed.

(** The handler touches the two connection-keyed tables only. *)
Lemma onConnectionClosed_frame (c : Connection.t) w :
  peers (swarm (onConnectionClosed c w)) = peers (swarm w)
  ∧ pendingOutgoingMessages (swarm (onConnectionClosed c w))
    = pendingOutgoingMessages (swarm w)
  ∧ nodes (onConnectionClosed c w) = nodes w
  ∧ effects (onConnectionClosed c w) = effects w.
Proof. done. Qed.

(** C7 (as the code has it): for every connection-closed event for a
    connection [c] bound to a RemoteNode [n], after the handler has run [n]
    is still in the peer table under the peer id it had, and the object it
    refers to still holds the Session reference it held before: the handler
    does not clear it. *)
Theorem onConnectionClosed_keeps_node_and_session
    (c : Connection.t) w (n : RemoteNode) (peerId : string) :
  peersByConnection (swarm w) !! Connection.Id c = Some n →
  peers (swarm w) !! peerId = Some n →
  let w' := onConnectionClosed c w in
  peers (swarm w') !! peerId = Some n
  ∧ deref (nodes w') n = deref (nodes w) n
  ∧ sessionOf (nodes w') n = sessionOf (nodes w) n
  ∧ HasSession (nodes w') n = HasSession (nodes w) n.
Proof.
  intros _ Hpeer w'.
  destruct (onConnectionClosed_frame c w) as (Hp & _ & Hn & _).
  subst w'. rewrite Hp, Hn. by repeat split.
Qed.

(** *** Incoming messages *)

(** C2: for every incoming message whose bytes fail to decode as the common
    envelope, the handler closes the connection the message arrived on and
    does nothing else with the message: besides the warning it logs, the
    close is the only effect, and the swarm's tables and the remote-node
    objects are as they were. *)
Theorem onRemoteClientMessage_malformed_closes
    (msg : ConnectionMessage.t) w (err : error) :
  Unmarshal (ConnectionMessage.Message msg) = inr err →
  let w' := onRemoteClientMessage msg w in
  effects w' = effects w
               ++ [EvLog LvlWarning "Bad request - closing connection..." [];
                   EvClose (ConnectionMessage.Connection msg)]
  ∧ swarm w' = swarm w
  ∧ nodes w' = nodes w.
Proof.
  intros Hbad w'. subst w'. unfold onRemoteClientMessage. by rewrite Hbad.
Qed.

(** C3 (what the code does where the claim wants the connection closed):
    for every incoming message that decodes to an envelope with a non-empty
    payload and arrives on a connection not bound to a RemoteNode with an
    authenticated session, the handler does nothing at all: the world after
    it is the world before it, so the connection is not closed (and nothing
    is dispatched). *)
Theorem onRemoteClientMessage_payload_unbound_ignored
    (msg : ConnectionMessage.t) w (c : CommonMessageData.t) :
  Unmarshal (ConnectionMessage.Message msg) = inl c →
  CommonMessageData.Payload c ≠ [] →
  ¬ boundAuthenticated w (ConnectionMessage.Connection msg) →
  onRemoteClientMessage msg w = w.
Proof.
  intros Hdec _ _. unfold onRemoteClientMessage. rewrite Hdec.
  by destruct (Nat.eqb _ _).
Qed.

(** *** Connect requests *)

(** Whatever [GetSession] does, the callback it was given did. *)
Lemma GetSession_elem (h : store) (n : RemoteNode) fn (ev : Effect) :
  ev ∈ GetSession h n fn → ∃ sess, ev ∈ fn sess.
Proof.
  unfold GetSession. destruct (sessionOf h n) as [sess|].
  - destruct (NetworkSession.IsAuthenticated sess); [by exists sess|].
    intros Hin. by apply not_elem_of_nil in Hin.
  - intros Hin. by apply not_elem_of_nil in Hin.
Qed.

(** The effects one connect request adds never include a send on a callback
    channel. *)
Lemma onConnectionRequest_effects (req : NodeReq.t) w :
  ∃ es, effects (onConnectionRequest req w) = effects w ++ es
        ∧ ∀ ch resp, EvCallback ch resp ∉ es.
Proof.
  unfold onConnectionRequest, NewRemoteNode.
  destruct (index _ _) as [|l]; cbn -[GetSession].
  - destruct (checkRemoteNode _ _); cbn.
    + exists []. rewrite app_nil_r. split; [done|]. intros ch resp. apply not_elem_of_nil.
    + eexists. split; [done|]. intros ch resp Hin.
      apply list_elem_of_singleton in Hin. discriminate.
  - destruct (HasSession _ _); cbn -[GetSession];
      (eexists; split; [done|]); intros ch resp Hin.
    + apply elem_of_cons in Hin as [Hin|Hin]; [discriminate|].
      apply GetSession_elem in Hin as [sess Hin].
      apply list_elem_of_singleton in Hin. discriminate.
    + apply list_elem_of_singleton in Hin. discriminate.
Qed.

(** C4 (as the code has it): for every connect request, the connect handler
    sends nothing on the callback channel of the request; in particular,
    when the peer is not in the peer table and the RemoteNode cannot be
    constructed, the request is aborted silently: the handler returns with
    the tables, the remote-node objects and the effect trace as they were. *)
Theorem onConnectionRequest_no_callback (req : NodeReq.t) w :
  let w' := onConnectionRequest req w in
  (∀ ch resp, EvCallback ch resp ∈ effects w' → EvCallback ch resp ∈ effects w)
  ∧ (∀ e, index (peers (swarm w)) (NodeReq.remoteNodeId req) = nilNode →
          checkRemoteNode (NodeReq.remoteNodeId req) (NodeReq.remoteNodeIp req) = Some e →
          w' = w).
Proof.
  intros w'. subst w'. split.
  - intros ch resp Hin.
    destruct (onConnectionRequest_effects req w) as (es & Heq & Hno).
    rewrite Heq in Hin. apply elem_of_app in Hin as [Hin|Hin]; [done|].
    by apply Hno in Hin.
  - intros e Hnil Hbad. unfold onConnectionRequest, NewRemoteNode.
    by rewrite Hnil, Hbad.
Qed.

(** C5 (what the code does where the claim wants the stored node handed to
    the handshake): for every connect request naming a peer id absent from
    the peer table, when construction succeeds the handler stores the new
    RemoteNode, a reference to a new object with the requested identity and
    no session, in the peer table under that peer id, and then invokes
    CreateSession with the nil RemoteNode, not with the stored one. *)
Theorem onConnectionRequest_new_peer_handshake_nil (req : NodeReq.t) w :
  peers (swarm w) !! NodeReq.remoteNodeId req = None →
  checkRemoteNode (NodeReq.remoteNodeId req) (NodeReq.remoteNodeIp req) = None →
  let w' := onConnectionRequest req w in
  let stored := nodeRef (length (nodes w)) in
  peers (swarm w') !! NodeReq.remoteNodeId req = Some stored
  ∧ deref (nodes w') stored
    = Some (RemoteNodeData.mk (NodeReq.remoteNodeId req) (NodeReq.remoteNodeIp req) None)
  ∧ effects w' = effects w ++ [EvCreateSession nilNode]
  ∧ EvCreateSession stored ∉ [EvCreateSession nilNode].
Proof.
  intros Habs Hok w' stored. subst w' stored.
  unfold onConnectionRequest, NewRemoteNode.
  rewrite (index_absent _ _ Habs), Hok. cbn.
  split; [apply lookup_insert_eq|].
  split; [apply list_lookup_middle; done|].
  split; [done|].
  intros Hin. apply list_elem_of_singleton in Hin. discriminate.
Qed.

(** The sibling path: a peer found in the table that holds a session gets no
    handshake; the handler logs and returns. *)
Lemma onConnectionRequest_has_session_no_handshake (req : NodeReq.t) w l :
  peers (swarm w) !! NodeReq.remoteNodeId req = Some (nodeRef l) →
  HasSession (nodes w) (nodeRef l) = true →
  let w' := onConnectionRequest req w in
  swarm w' = swarm w ∧ nodes w' = nodes w
  ∧ ∃ es, effects w' = effects w ++ es ∧ ∀ n, EvCreateSession n ∉ es.
Proof.
  intros Hp Hs w'. subst w'. unfold onConnectionRequest.
  rewrite (index_present _ _ _ Hp). cbn -[GetSession HasSession]. rewrite Hs.
  cbn -[GetSession].
  split; [done|]. split; [done|]. eexists. split; [done|].
  intros n Hin. apply elem_of_cons in Hin as [Hin|Hin]; [discriminate|].
  apply GetSession_elem in Hin as [sess Hin].
  apply list_elem_of_singleton in Hin. discriminate.
Qed.

(** *** The event loop *)

(** A run that is back at the [select] goes on with the next events from the
    world it reached. *)
Lemma beginProcessingEvents_app evs1 evs2 w w1 :
  beginProcessingEvents evs1 w = Waiting w1 →
  beginProcessingEvents (evs1 ++ evs2) w = beginProcessingEvents evs2 w1.
Proof.
  revert w. induction evs1 as [|ev evs1 IH]; intros w Hrun.
  - cbn in Hrun. by injection Hrun as ->.
  - destruct ev; cbn in Hrun |- *; try discriminate; by apply IH.
Qed.

(** C8 (as the code has it): when the kill signal is consumed, the event
    loop terminates without consuming any later event, and the
    pending-outgoing-message table is what it was when the signal arrived:
    the entries still pending stay in the table, unresolved, for whatever
    the kill step adds to the effect trace contains no send on a callback
    channel, so no result and no shutdown error reaches a caller. *)
Theorem beginProcessingEvents_kill_terminates evs1 (b : bool) evs2 w w1 :
  beginProcessingEvents evs1 w = Waiting w1 →
  ∃ w2 es,
    beginProcessingEvents (evs1 ++ Kill b :: evs2) w = Terminated w2 evs2
    ∧ pendingOutgoingMessages (swarm w2) = pendingOutgoingMessages (swarm w1)
    ∧ effects w2 = effects w1 ++ es
    ∧ ∀ ch resp, EvCallback ch resp ∉ es.
Proof.
  intros Hrun. exists w1, [].
  rewrite (beginProcessingEvents_app _ _ _ _ Hrun), app_nil_r.
  repeat split. intros ch resp. apply not_elem_of_nil.
Qed.

(** *** Construction *)

(** C10: [NewSwarm] returns a nil swarm together with a non-nil error exactly
    when creating the network for the address fails; when that succeeds it
    returns, with a nil error, a swarm whose four tables are empty, that has
    the supplied local node and the created network installed, and a newly
    created demuxer. *)
Theorem NewSwarm_spec (tcpAddress : string) (l : LocalNode) :
  let r := (NewSwarm tcpAddress l).1 in
  (r.1 = None ∧ r.2 ≠ None ↔ (NewNetwork tcpAddress).2 ≠ None)
  ∧ ((NewNetwork tcpAddress).2 = None →
     ∃ s, r = (Some s, None)
          ∧ peers s = ∅
          ∧ connections s = ∅
          ∧ peersByConnection s = ∅
          ∧ pendingOutgoingMessages s = ∅
          ∧ localNode s = l
          ∧ demuxer s = NewDemuxer
          ∧ network s = (NewNetwork tcpAddress).1).
Proof.
  unfold NewSwarm. destruct (NewNetwork tcpAddress) as [n [e|]]; cbn.
  - split; [|done]. split; [done|]. intros _. split; done.
  - split.
    + split; [intros [? _]; done | done].
    + intros _. eexists. repeat split.
Qed.

End Properties.

(** ** The handlers at work on the concrete node *)

(** C1, at a concrete input: [req-1] is pending with the request [reqOld];
    a second send request [reqNew] with the same reqId is not rejected: the
    entry for [req-1] is no longer what it was, and no effect reports
    anything to the caller. *)
Lemma send_duplicate_reqId_overwrites :
  pendingOutgoingMessages (swarm Demo.w1) !! "req-1" = Some Demo.reqOld
  ∧ SendMessageReq.reqId Demo.reqNew = "req-1"
  ∧ pendingOutgoingMessages (swarm (onSendMessageRequest Demo.reqNew Demo.w1)) !! "req-1"
    ≠ pendingOutgoingMessages (swarm Demo.w1) !! "req-1"
  ∧ pendingOutgoingMessages (swarm (onSendMessageRequest Demo.reqNew Demo.w1)) !! "req-1"
    = Some Demo.reqNew
  ∧ effects (onSendMessageRequest Demo.reqNew Demo.w1) = [].
Proof.
  repeat split; try reflexivity.
  vm_compute. discriminate.
Qed.

Lemma onSendMessageRequest_stores_witness :
  "req-0" ≠ SendMessageReq.reqId Demo.reqNew
  ∧ pendingOutgoingMessages (swarm (onSendMessageRequest Demo.reqNew Demo.w1)) !! "req-0"
    = pendingOutgoingMessages (swarm Demo.w1) !! "req-0".
Proof.
  assert (Hne : "req-0" ≠ SendMessageReq.reqId Demo.reqNew) by discriminate.
  split; [exact Hne|].
  exact (proj1 (proj2 (onSendMessageRequest_stores Demo.reqNew Demo.w1)) "req-0" Hne).
Defined.

Lemma onRemoteClientMessage_malformed_closes_witness :
  Unmarshal (Collaborators:=Demo.env) (ConnectionMessage.Message Demo.badMsg) = inr "proto: unexpected EOF"
  ∧ effects (onRemoteClientMessage Demo.badMsg Demo.w1)
    = [EvLog LvlWarning "Bad request - closing connection..." []; EvClose Demo.c1]
  ∧ swarm (onRemoteClientMessage Demo.badMsg Demo.w1) = swarm Demo.w1
  ∧ nodes (onRemoteClientMessage Demo.badMsg Demo.w1) = nodes Demo.w1.
Proof.
  split; [reflexivity|].
  exact (onRemoteClientMessage_malformed_closes
           Demo.badMsg Demo.w1 "proto: unexpected EOF" eq_refl).
Defined.

Lemma onRemoteClientMessage_payload_unbound_ignored_witness :
  Unmarshal (Collaborators:=Demo.env) (ConnectionMessage.Message Demo.dataMsg)
  = inl (CommonMessageData.mk [xde; xad])
  ∧ peersByConnection (swarm Demo.w1) !! Connection.Id Demo.c2 = None
  ∧ onRemoteClientMessage Demo.dataMsg Demo.w1 = Demo.w1
  ∧ EvClose Demo.c2 ∉ effects Demo.w1.
Proof.
  split; [reflexivity|]. split; [reflexivity|]. split.
  - apply (onRemoteClientMessage_payload_unbound_ignored
             Demo.dataMsg Demo.w1 (CommonMessageData.mk [xde; xad])).
    + reflexivity.
    + discriminate.
    + intros (n & sess & Hbound & _). vm_compute in Hbound. discriminate.
  - apply not_elem_of_nil.
Defined.

(** C4, at a concrete input: a connect request with a malformed address for
    a peer the node does not know.  The handler returns with the world as it
    was: the effect trace is empty, so no result was sent on the callback
    channel, nothing of the request is kept, and the loop is back at its
    [select]. *)
Lemma connect_malformed_address_no_result :
  peers (swarm Demo.w0) !! NodeReq.remoteNodeId Demo.badReq = None
  ∧ checkRemoteNode (Collaborators:=Demo.env) (NodeReq.remoteNodeId Demo.badReq) (NodeReq.remoteNodeIp Demo.badReq)
    = Some "invalid remote node address"
  ∧ onConnectionRequest Demo.badReq Demo.w0 = Demo.w0
  ∧ effects (onConnectionRequest Demo.badReq Demo.w0) = []
  ∧ beginProcessingEvents [ConnectionRequest Demo.badReq] Demo.w0 = Waiting Demo.w0.
Proof. repeat split. Qed.

Lemma onConnectionRequest_no_callback_witness :
  index (peers (swarm Demo.w0)) (NodeReq.remoteNodeId Demo.badReq) = nilNode
  ∧ checkRemoteNode (Collaborators:=Demo.env) (NodeReq.remoteNodeId Demo.badReq) (NodeReq.remoteNodeIp Demo.badReq)
    = Some "invalid remote node address"
  ∧ onConnectionRequest Demo.badReq Demo.w0 = Demo.w0.
Proof.
  split; [reflexivity|]. split; [reflexivity|].
  exact (proj2 (onConnectionRequest_no_callback Demo.badReq Demo.w0)
               "invalid remote node address" eq_refl eq_refl).
Defined.

Lemma onConnectionRequest_new_peer_handshake_nil_witness :
  peers (swarm Demo.w0) !! NodeReq.remoteNodeId Demo.goodReq = None
  ∧ checkRemoteNode (Collaborators:=Demo.env) (NodeReq.remoteNodeId Demo.goodReq) (NodeReq.remoteNodeIp Demo.goodReq)
    = None
  ∧ peers (swarm (onConnectionRequest Demo.goodReq Demo.w0)) !! "peerZ" = Some (nodeRef 0)
  ∧ deref (nodes (onConnectionRequest Demo.goodReq Demo.w0)) (nodeRef 0)
    = Some (RemoteNodeData.mk "peerZ" "10.0.0.8:7513" None)
  ∧ effects (onConnectionRequest Demo.goodReq Demo.w0) = [EvCreateSession nilNode]
  ∧ EvCreateSession (nodeRef 0) ∉ [EvCreateSession nilNode].
Proof.
  split; [reflexivity|]. split; [reflexivity|].
  exact (onConnectionRequest_new_peer_handshake_nil Demo.goodReq Demo.w0 eq_refl eq_refl).
Defined.

(** C7, at a concrete input: [peerX] holds an authenticated session and is
    bound to the connection [c1].  After the connection-closed handler has
    run for [c1] the object of [peerX] still holds that session, and a
    connect request for [peerX] finds it and starts no handshake. *)
Lemma closed_connection_keeps_session :
  peersByConnection (swarm Demo.w1) !! Connection.Id Demo.c1 = Some (nodeRef 0)
  ∧ peers (swarm Demo.w1) !! "peerX" = Some (nodeRef 0)
  ∧ sessionOf (nodes (onConnectionClosed Demo.c1 Demo.w1)) (nodeRef 0) = Some Demo.sessX
  ∧ sessionOf (nodes (onConnectionClosed Demo.c1 Demo.w1)) (nodeRef 0) ≠ None
  ∧ effects (onConnectionRequest (NodeReq.mk "peerX" "10.0.0.7:7513" 3)
               (onConnectionClosed Demo.c1 Demo.w1))
    = [EvLog LvlInfo "We have a session with this node" [];
       EvLog LvlInfo "Session info: %s" [ArgBool true]].
Proof. repeat split. discriminate. Qed.

Lemma onConnectionClosed_keeps_node_and_session_witness :
  peersByConnection (swarm Demo.w1) !! Connection.Id Demo.c1 = Some (nodeRef 0)
  ∧ peers (swarm Demo.w1) !! "peerX" = Some (nodeRef 0)
  ∧ peers (swarm (onConnectionClosed Demo.c1 Demo.w1)) !! "peerX" = Some (nodeRef 0)
  ∧ deref (nodes (onConnectionClosed Demo.c1 Demo.w1)) (nodeRef 0)
    = deref (nodes Demo.w1) (nodeRef 0)
  ∧ sessionOf (nodes (onConnectionClosed Demo.c1 Demo.w1)) (nodeRef 0)
    = sessionOf (nodes Demo.w1) (nodeRef 0)
  ∧ HasSession (nodes (onConnectionClosed Demo.c1 Demo.w1)) (nodeRef 0)
    = HasSession (nodes Demo.w1) (nodeRef 0).
Proof.
  split; [reflexivity|]. split; [reflexivity|].
  exact (onConnectionClosed_keeps_node_and_session
           Demo.c1 Demo.w1 (nodeRef 0) "peerX" eq_refl eq_refl).
Defined.

(** C8, at a concrete input: the node has the open connection [c1] and the
    pending request [req-1] when the kill signal arrives.  The loop
    terminates with the world it had: no effect was performed, so [c1] was
    not closed, and [req-1] is still in the pending table. *)
Lemma kill_leaves_connections_and_pending :
  connections (swarm Demo.w1) !! "c1" = Some Demo.c1
  ∧ pendingOutgoingMessages (swarm Demo.w1) !! "req-1" = Some Demo.reqOld
  ∧ beginProcessingEvents [Kill true] Demo.w1 = Terminated Demo.w1 []
  ∧ effects Demo.w1 = []
  ∧ EvClose Demo.c1 ∉ effects Demo.w1.
Proof. repeat split. apply not_elem_of_nil. Qed.

Lemma beginProcessingEvents_kill_terminates_witness :
  beginProcessingEvents [SendMsgRequest Demo.reqOld; ClosingConnection Demo.c1] Demo.w0
  = Waiting (onSendMessageRequest Demo.reqOld Demo.w0)
  ∧ ∃ w2 es,
      beginProcessingEvents
        ([SendMsgRequest Demo.reqOld; ClosingConnection Demo.c1]
         ++ Kill true :: [SendMsgRequest Demo.reqNew]) Demo.w0
      = Terminated w2 [SendMsgRequest Demo.reqNew]
      ∧ pendingOutgoingMessages (swarm w2)
        = pendingOutgoingMessages (swarm (onSendMessageRequest Demo.reqOld Demo.w0))
      ∧ effects w2 = effects (onSendMessageRequest Demo.reqOld Demo.w0) ++ es
      ∧ ∀ ch resp, EvCallback ch resp ∉ es.
Proof.
  split; [reflexivity|].
  exact (beginProcessingEvents_kill_terminates
           [SendMsgRequest Demo.reqOld; ClosingConnection Demo.c1] true
           [SendMsgRequest Demo.reqNew] Demo.w0
           (onSendMessageRequest Demo.reqOld Demo.w0) eq_refl).
Defined.

Lemma NewSwarm_spec_witness :
  (NewNetwork (Collaborators:=Demo.env) "0.0.0.0:7513").2 = None
  ∧ ∃ s, (NewSwarm (E:=Demo.env) "0.0.0.0:7513" "local").1 = (Some s, None)
         ∧ peers s = ∅
         ∧ connections s = ∅
         ∧ peersByConnection s = ∅
         ∧ pendingOutgoingMessages s = ∅
         ∧ localNode s = "local"
         ∧ demuxer s = tt
         ∧ network s = Some "0.0.0.0:7513".
Proof.
  split; [reflexivity|].
  exact (proj2 (NewSwarm_spec (E:=Demo.env) "0.0.0.0:7513" "local") eq_refl).
Defined.

(** ** Properties of whole runs of the event loop *)

Section LoopProperties.

Context {E : Collaborators}.

Implicit Types (w : world E) (s : swarmImpl E) (ev : Event E) (evs : list (Event E)).

(** Unfolds the two handlers that branch and splits their cases. *)
Ltac handler_cases :=
  unfold onRemoteClientMessage, onConnectionRequest, NewRemoteNode;
  repeat case_match; simplify_eq; cbn -[GetSession HasSession] in *.

(** The world of a run is the world the handlers of the consumed events
    leave. *)
Lemma beginProcessingEvents_handleAll evs w :
  resultWorld (beginProcessingEvents evs w) = handleAll (consumed evs) w.
Proof.
  revert w. induction evs as [|ev evs IH]; intros w; [done|].
  destruct ev; cbn; try done; apply IH.
Qed.

(** What every handler keeps, every sequence of handlers keeps. *)
Lemma handleAll_ind (P : world E → Prop) evs w :
  (∀ ev w, P w → P (dispatch ev w)) → P w → P (handleAll evs w).
Proof.
  intros Hstep. revert w. induction evs as [|ev evs IH]; intros w Hw; [done|].
  cbn. apply IH, Hstep, Hw.
Qed.

Lemma handleAll_cons ev evs w :
  handleAll (ev :: evs) w = handleAll evs (dispatch ev w).
Proof. reflexivity. Qed.

Lemma handleAll_app evs1 evs2 w :
  handleAll (evs1 ++ evs2) w = handleAll evs2 (handleAll evs1 w).
Proof. apply foldl_app. Qed.

Lemma consumed_no_kill evs b : Kill b ∉ consumed evs.
Proof.
  induction evs as [|ev evs IH]; [apply not_elem_of_nil|].
  destruct ev; cbn; try apply not_elem_of_nil;
    (apply not_elem_of_cons; split; [discriminate|done]).
Qed.

Lemma sentIds_app evs1 evs2 : sentIds (evs1 ++ evs2) = sentIds evs1 ++ sentIds evs2.
Proof.
  induction evs1 as [|ev evs1 IH]; [done|].
  destruct ev; cbn; by rewrite ?IH.
Qed.

(** *** The fields set at construction *)

Lemma dispatch_construction_fields ev w :
  network (swarm (dispatch ev w)) = network (swarm w)
  ∧ localNode (swarm (dispatch ev w)) = localNode (swarm w)
  ∧ demuxer (swarm (dispatch ev w)) = demuxer (swarm w).
Proof. destruct ev; cbn; try done; handler_cases; done. Qed.

(** X1: whatever events the loop receives, the network, the local node
    returned by [LocalNode()] and the demuxer returned by [GetDemuxer()] are
    those the swarm was constructed with: no handler assigns these fields. *)
Theorem loop_keeps_construction_fields evs w :
  let w' := resultWorld (beginProcessingEvents evs w) in
  network (swarm w') = network (swarm w)
  ∧ GetLocalNode (swarm w') = GetLocalNode (swarm w)
  ∧ GetDemuxer (swarm w') = GetDemuxer (swarm w).
Proof.
  cbn. rewrite beginProcessingEvents_handleAll. unfold GetLocalNode, GetDemuxer.
  apply (handleAll_ind (λ w', network (swarm w') = network (swarm w)
                              ∧ localNode (swarm w') = localNode (swarm w)
                              ∧ demuxer (swarm w') = demuxer (swarm w))); [|done].
  intros ev w0 (Hn & Hl & Hd).
  destruct (dispatch_construction_fields ev w0) as (-> & -> & ->). done.
Qed.

(** *** Termination *)

(** X2: the loop leaves its [for] exactly when it receives a kill signal:
    a run has terminated with the events [rest] unconsumed if and only if
    the events received are some events without a kill signal, all handled,
    then a kill signal, then [rest].  No handler outcome ends the loop. *)
Theorem loop_terminates_only_on_kill evs w w' rest :
  beginProcessingEvents evs w = Terminated w' rest
  ↔ ∃ pre b, evs = pre ++ Kill b :: rest
             ∧ beginProcessingEvents pre w = Waiting w'.
Proof.
  split.
  - revert w. induction evs as [|ev evs IH]; intros w Hrun; [discriminate|].
    destruct ev as [b|c|m|err|err|c|r|req|req]; cbn in Hrun;
      [ injection Hrun as -> ->; by exists [], b | .. ];
      (apply IH in Hrun as (pre & b & -> & Hpre);
       eexists (_ :: pre), b; split; [done|exact Hpre]).
  - intros (pre & b & -> & Hpre). revert w Hpre.
    induction pre as [|ev pre IH]; intros w Hpre.
    + cbn in Hpre. by injection Hpre as ->.
    + destruct ev; cbn in Hpre |- *; try discriminate; by apply IH.
Qed.

(** A run over events without a kill signal is back at the [select]. *)
Lemma loop_waits_without_kill evs w :
  (∀ b, Kill b ∉ evs) →
  beginProcessingEvents evs w = Waiting (handleAll evs w).
Proof.
  revert w. induction evs as [|ev evs IH]; intros w Hno; [done|].
  assert (∀ b, Kill b ∉ evs) as Hno'.
  { intros b Hin. apply (Hno b). by right. }
  destruct ev as [b|c|m|err|err|c|r|req|req]; cbn;
    [ exfalso; apply (Hno b); left | .. ]; by apply IH.
Qed.

(** *** The pending table over a run *)

Lemma dispatch_pending ev w :
  pendingOutgoingMessages (swarm (dispatch ev w))
  = match ev with
    | SendMsgRequest r =>
        <[SendMessageReq.reqId r := r]> (pendingOutgoingMessages (swarm w))
    | _ => pendingOutgoingMessages (swarm w)
    end.
Proof. destruct ev; cbn; try done; handler_cases; done. Qed.

Lemma handleAll_pending_untouched evs w (k : string) :
  k ∉ sentIds evs →
  pendingOutgoingMessages (swarm (handleAll evs w)) !! k
  = pendingOutgoingMessages (swarm w) !! k.
Proof.
  revert w. induction evs as [|ev evs IH]; intros w Hk; [done|].
  rewrite handleAll_cons.
  destruct ev as [b|c|m|err|err|c|r|req|req];
    try (cbn in Hk; rewrite (IH _ Hk), dispatch_pending; done).
  cbn in Hk. apply not_elem_of_cons in Hk as [Hne Hk].
  rewrite (IH _ Hk), dispatch_pending. by apply lookup_insert_ne.
Qed.

(** X3: the request ids with an entry in the pending table after a run are
    those that had one before, together with the request ids of the send
    requests the loop consumed: the loop adds entries and never retires
    one. *)
Theorem loop_pending_domain evs w :
  dom (pendingOutgoingMessages (swarm (resultWorld (beginProcessingEvents evs w))))
  = dom (pendingOutgoingMessages (swarm w)) ∪ list_to_set (sentIds (consumed evs)).
Proof.
  rewrite beginProcessingEvents_handleAll. generalize (consumed evs) as l.
  intros l. revert w. induction l as [|ev l IH]; intros w.
  - cbn. set_solver.
  - rewrite handleAll_cons, IH, dispatch_pending.
    destruct ev; cbn; rewrite ?dom_insert_L; set_solver.
Qed.

(** X4: if the loop consumed the send request [r] and no send request it
    consumed later has the same request id, then after the run the pending
    table holds [r] under that id: the last request sent with an id is the
    one recorded. *)
Theorem loop_pending_last_write evs w (r : SendMessageReq.t) pre post :
  consumed evs = pre ++ SendMsgRequest r :: post →
  SendMessageReq.reqId r ∉ sentIds post →
  pendingOutgoingMessages (swarm (resultWorld (beginProcessingEvents evs w)))
    !! SendMessageReq.reqId r = Some r.
Proof.
  intros Hsplit Hlast.
  rewrite beginProcessingEvents_handleAll, Hsplit, handleAll_app, handleAll_cons.
  rewrite (handleAll_pending_untouched _ _ _ Hlast), dispatch_pending.
  apply lookup_insert_eq.
Qed.

(** X5: a request id that none of the consumed send requests carries has
    after the run the entry it had before, or none if it had none: handlers
    of other events, and send requests with other ids, leave it alone. *)
Theorem loop_pending_other_ids evs w (k : string) :
  k ∉ sentIds (consumed evs) →
  pendingOutgoingMessages (swarm (resultWorld (beginProcessingEvents evs w))) !! k
  = pendingOutgoingMessages (swarm w) !! k.
Proof.
  intros Hk. rewrite beginProcessingEvents_handleAll.
  by apply handleAll_pending_untouched.
Qed.

(** *** The connection tables over a run *)

Lemma dispatch_connections ev w :
  connections (swarm (dispatch ev w)) ⊆ connections (swarm w)
  ∧ peersByConnection (swarm (dispatch ev w)) ⊆ peersByConnection (swarm w).
Proof.
  destruct ev; cbn; try done; try (split; apply delete_subseteq);
    handler_cases; done.
Qed.

Lemma handleAll_connections evs w :
  connections (swarm (handleAll evs w)) ⊆ connections (swarm w)
  ∧ peersByConnection (swarm (handleAll evs w)) ⊆ peersByConnection (swarm w).
Proof.
  apply (handleAll_ind (λ w', connections (swarm w') ⊆ connections (swarm w)
       ∧ peersByConnection (swarm w') ⊆ peersByConnection (swarm w))); [|done].
  intros ev w0 [Hc Hp]. destruct (dispatch_connections ev w0) as [Hc' Hp'].
  split; etrans; done.
Qed.

(** X6: no handler ever adds an entry to the connection table or to the
    peer-by-connection index: after any run each of the two tables is
    included in what it was before the run. *)
Theorem loop_connection_tables_shrink evs w :
  let w' := resultWorld (beginProcessingEvents evs w) in
  connections (swarm w') ⊆ connections (swarm w)
  ∧ peersByConnection (swarm w') ⊆ peersByConnection (swarm w).
Proof. cbn. rewrite beginProcessingEvents_handleAll. apply handleAll_connections. Qed.

(** X7: in a swarm that [NewSwarm] returned, the connection table and the
    peer-by-connection index are empty after every run of the loop,
    whatever events arrive. *)
Theorem new_swarm_never_tracks_connections
    (tcpAddress : string) (l : LocalNode) s es (h : store) evs :
  NewSwarm tcpAddress l = ((Some s, None), es) →
  let w' := resultWorld (beginProcessingEvents evs (mkWorld s h es)) in
  connections (swarm w') = ∅ ∧ peersByConnection (swarm w') = ∅.
Proof.
  intros Hnew w'. subst w'.
  assert (connections s = ∅ ∧ peersByConnection s = ∅) as [Hc Hp].
  { unfold NewSwarm in Hnew. destruct (NewNetwork tcpAddress) as [n [e|]];
      [discriminate|]. by injection Hnew as <- _. }
  rewrite beginProcessingEvents_handleAll.
  destruct (handleAll_connections (consumed evs) (mkWorld s h es)) as [Hc' Hp'].
  cbn in Hc', Hp'. rewrite Hc in Hc'. rewrite Hp in Hp'.
  split; apply map_empty; intros k; eapply lookup_weaken_None; try done;
    apply lookup_empty.
Qed.

(** X8: once the loop has consumed the closing event of a connection [c],
    the connection table and the peer-by-connection index have no entry for
    [c]'s id at the end of the run, whatever was consumed after it. *)
Theorem loop_closed_connection_stays_purged evs w (c : Connection.t) :
  ClosingConnection c ∈ consumed evs →
  let w' := resultWorld (beginProcessingEvents evs w) in
  connections (swarm w') !! Connection.Id c = None
  ∧ peersByConnection (swarm w') !! Connection.Id c = None.
Proof.
  intros Hin w'. subst w'. rewrite beginProcessingEvents_handleAll.
  apply list_elem_of_split in Hin as (pre & post & ->).
  rewrite handleAll_app, handleAll_cons.
  destruct (handleAll_connections post (dispatch (ClosingConnection c) (handleAll pre w)))
    as [Hc Hp].
  split; eapply lookup_weaken_None; try done; cbn; apply lookup_delete_eq.
Qed.

(** *** The peer table over a run *)

Lemma index_nil_lookup (m : gmap string RemoteNode) (k : string) (l : loc) :
  index m k = nilNode → m !! k ≠ Some (nodeRef l).
Proof. unfold index. intros Hnil Hk. rewrite Hk in Hnil. discriminate. Qed.

Lemma dispatch_peers ev w (k : string) (l : loc) :
  peers (swarm w) !! k = Some (nodeRef l) →
  peers (swarm (dispatch ev w)) !! k = Some (nodeRef l).
Proof.
  intros Hk. destruct ev as [b|c|m|err|err|c|r|req|req]; cbn; try done.
  - unfold onRemoteClientMessage. by repeat case_match.
  - unfold onConnectionRequest, NewRemoteNode.
    destruct (index _ _) eqn:Hidx; cbn -[GetSession HasSession].
    + destruct (checkRemoteNode _ _); [done|].
      cbn -[GetSession HasSession]. rewrite lookup_insert_ne; [done|].
      intros <-. by apply (index_nil_lookup _ _ l) in Hidx.
    + by destruct (HasSession _ _).
Qed.

(** X9: a peer id that the peer table maps to a (non-nil) RemoteNode is
    mapped to that same RemoteNode after every run: the loop never removes
    a peer and never replaces the node of a known peer. *)
Theorem loop_peers_stable evs w (k : string) (l : loc) :
  peers (swarm w) !! k = Some (nodeRef l) →
  peers (swarm (resultWorld (beginProcessingEvents evs w))) !! k = Some (nodeRef l).
Proof.
  intros Hk. rewrite beginProcessingEvents_handleAll.
  apply (handleAll_ind (λ w', peers (swarm w') !! k = Some (nodeRef l))); [|done].
  intros ev w0. apply dispatch_peers.
Qed.

Lemma dispatch_peersWellFormed ev w :
  peersWellFormed w → peersWellFormed (dispatch ev w).
Proof.
  intros Hwf. destruct ev as [b|c|m|err|err|c|r|req|req]; cbn; try done.
  - unfold onRemoteClientMessage. by repeat case_match.
  - unfold onConnectionRequest, NewRemoteNode.
    destruct (index _ _) eqn:Hidx; cbn -[GetSession HasSession].
    + destruct (checkRemoteNode _ _); [done|].
      cbn -[GetSession HasSession]. intros k l. cbn.
      destruct (decide (k = NodeReq.remoteNodeId req)) as [->|Hne].
      * rewrite lookup_insert_eq. intros [= <-].
        exists (RemoteNodeData.mk (NodeReq.remoteNodeId req)
                                  (NodeReq.remoteNodeIp req) None).
        split; [by apply list_lookup_middle | done].
      * rewrite lookup_insert_ne by done. intros Hk.
        destruct (Hwf k l Hk) as (d & Hd & Hid). exists d. split; [|done].
        by apply lookup_app_l_Some.
    + by destruct (HasSession _ _).
Qed.

(** X10: if every RemoteNode in the peer table refers to an allocated
    object whose id is the peer id it is stored under, this is still so
    after every run of the loop. *)
Theorem loop_peers_well_formed evs w :
  peersWellFormed w →
  peersWellFormed (resultWorld (beginProcessingEvents evs w)).
Proof.
  intros Hwf. rewrite beginProcessingEvents_handleAll.
  apply (handleAll_ind peersWellFormed); [|done].
  intros ev w0. apply dispatch_peersWellFormed.
Qed.

(** A connect request for an absent peer id with a well-formed address. *)
Lemma onConnectionRequest_new (req : NodeReq.t) w :
  peers (swarm w) !! NodeReq.remoteNodeId req = None →
  checkRemoteNode (NodeReq.remoteNodeId req) (NodeReq.remoteNodeIp req) = None →
  onConnectionRequest req w
  = mkWorld (setPeers (<[NodeReq.remoteNodeId req := nodeRef (length (nodes w))]>
                         (peers (swarm w))) (swarm w))
            (nodes w ++ [RemoteNodeData.mk (NodeReq.remoteNodeId req)
                                           (NodeReq.remoteNodeIp req) None])
            (effects w ++ [EvCreateSession nilNode]).
Proof.
  intros Habs Hok. unfold onConnectionRequest, NewRemoteNode.
  by rewrite (index_absent _ _ Habs), Hok.
Qed.

(** A connect request for a known peer that holds no session. *)
Lemma onConnectionRequest_known_no_session (req : NodeReq.t) w (l : loc) :
  peers (swarm w) !! NodeReq.remoteNodeId req = Some (nodeRef l) →
  HasSession (nodes w) (nodeRef l) = false →
  onConnectionRequest req w = emit [EvCreateSession (nodeRef l)] w.
Proof.
  intros Hk Hno. unfold onConnectionRequest.
  rewrite (index_present _ _ _ Hk). cbn -[GetSession HasSession].
  by rewrite Hno.
Qed.

(** A newly allocated node holds no session. *)
Lemma HasSession_new (h : store) (id ip : string) :
  HasSession (h ++ [RemoteNodeData.mk id ip None]) (nodeRef (length h)) = false.
Proof.
  unfold HasSession, sessionOf, deref, store. rewrite list_lookup_middle by done.
  done.
Qed.

(** X11: two connect requests in a row for a peer id absent from the peer
    table, with a well-formed first request: one RemoteNode object is
    allocated, not two; the peer table maps the id to it; the first request
    calls CreateSession with nil and the second with the stored node. *)
Theorem connect_twice_one_node (req req' : NodeReq.t) w :
  peers (swarm w) !! NodeReq.remoteNodeId req = None →
  checkRemoteNode (NodeReq.remoteNodeId req) (NodeReq.remoteNodeIp req) = None →
  NodeReq.remoteNodeId req' = NodeReq.remoteNodeId req →
  let w' := onConnectionRequest req' (onConnectionRequest req w) in
  let stored := nodeRef (length (nodes w)) in
  nodes w' = nodes w ++ [RemoteNodeData.mk (NodeReq.remoteNodeId req)
                                            (NodeReq.remoteNodeIp req) None]
  ∧ peers (swarm w') = <[NodeReq.remoteNodeId req := stored]> (peers (swarm w))
  ∧ effects w' = effects w ++ [EvCreateSession nilNode; EvCreateSession stored].
Proof.
  intros Habs Hok Hid w' stored. subst w' stored.
  rewrite (onConnectionRequest_new req w Habs Hok).
  rewrite (onConnectionRequest_known_no_session req' _ (length (nodes w))).
  - cbn. repeat split. by rewrite <- app_assoc.
  - cbn. rewrite Hid. apply lookup_insert_eq.
  - cbn. apply HasSession_new.
Qed.

(** *** The effects of a run *)

(** What one handler call adds to the trace. *)
Lemma dispatch_effects ev w :
  ∃ es, effects (dispatch ev w) = effects w ++ es
    ∧ (∀ c, EvClose c ∈ es ↔
            ∃ m err, ev = IncomingMessage m
                     ∧ ConnectionMessage.Connection m = c
                     ∧ Unmarshal (ConnectionMessage.Message m) = inr err)
    ∧ (∀ n, EvCreateSession n ∈ es →
            ∃ req, ev = ConnectionRequest req
                   ∧ n = index (peers (swarm w)) (NodeReq.remoteNodeId req))
    ∧ (∀ ch resp, EvCallback ch resp ∉ es)
    ∧ EvGoProcessEvents ∉ es.
Proof.
  assert (∀ w0 : world E, ∃ es, effects w0 = effects w0 ++ es
    ∧ (∀ c, EvClose c ∈ es → False)
    ∧ (∀ n, EvCreateSession n ∈ es → False)
    ∧ (∀ ch resp, EvCallback ch resp ∉ es)
    ∧ EvGoProcessEvents ∉ es) as Hnone.
  { intros w0. exists []. rewrite app_nil_r.
    repeat split; intros;
      match goal with
      | H : _ ∈ [] |- _ => by apply not_elem_of_nil in H
      | |- _ => apply not_elem_of_nil
      end. }
  destruct ev as [b|c|m|err|err|c|r|req|req]; cbn;
    try (destruct (Hnone w) as (es & Heq & Hc & Hs & Hcb & Hgo);
         exists es; split; [exact Heq|];
         split; [intros c0; split;
                   [ intros Hin; by apply Hc in Hin
                   | intros (? & ? & ? & _); discriminate ] |];
         split; [intros n Hin; by apply Hs in Hin|];
         split; [exact Hcb | exact Hgo]).
  - unfold onRemoteClientMessage.
    destruct (Unmarshal (ConnectionMessage.Message m)) as [env|err] eqn:Hdec.
    + exists []. replace (if Nat.eqb _ 0 then w else w) with w by by case_match.
      rewrite app_nil_r. split; [done|].
      split; [intros c0; split;
                [ intros Hin; by apply not_elem_of_nil in Hin
                | intros (m' & err & [= <-] & _ & Hbad); congruence ] |].
      split; [intros n Hin; by apply not_elem_of_nil in Hin|].
      split; [intros ch resp|]; apply not_elem_of_nil.
    + eexists. split; [done|].
      split; [intros c0; split|].
      * intros Hin. apply elem_of_cons in Hin as [Hin|Hin]; [discriminate|].
        apply list_elem_of_singleton in Hin. injection Hin as ->. by exists m, err.
      * intros (m' & err' & Hm & Hconn & _). injection Hm as <-. subst c0.
        right. by left.
      * split; [|split]; [intros n Hin | intros ch resp Hin | intros Hin];
          (apply elem_of_cons in Hin as [Hin|Hin]; [discriminate|]);
          apply list_elem_of_singleton in Hin; discriminate.
  - assert (∀ es : list Effect,
              (∀ e, e ∈ es → (∃ lvl fmt args, e = EvLog lvl fmt args)
                             ∨ e = EvCreateSession
                                     (index (peers (swarm w)) (NodeReq.remoteNodeId req))) →
              (∀ c, EvClose c ∈ es ↔
                 ∃ m err, ConnectionRequest req = IncomingMessage m
                          ∧ ConnectionMessage.Connection m = c
                          ∧ Unmarshal (ConnectionMessage.Message m) = inr err)
              ∧ (∀ n, EvCreateSession n ∈ es →
                 ∃ req0, ConnectionRequest req = ConnectionRequest req0
                         ∧ n = index (peers (swarm w)) (NodeReq.remoteNodeId req0))
              ∧ (∀ ch resp, EvCallback ch resp ∉ es)
              ∧ EvGoProcessEvents ∉ es) as Hshape.
    { intros es Hes. repeat split.
      - intros Hin. apply Hes in Hin as [(? & ? & ? & ?)|?]; discriminate.
      - intros (? & ? & ? & _). discriminate.
      - intros n Hin. exists req. split; [done|].
        apply Hes in Hin as [(? & ? & ? & ?)|Heq]; [discriminate|]. by injection Heq.
      - intros ch resp Hin. apply Hes in Hin as [(? & ? & ? & ?)|?]; discriminate.
      - intros Hin. apply Hes in Hin as [(? & ? & ? & ?)|?]; discriminate. }
    unfold onConnectionRequest, NewRemoteNode.
    destruct (index (peers (swarm w)) (NodeReq.remoteNodeId req)) as [|l] eqn:Hidx;
      cbn -[GetSession HasSession].
    + destruct (checkRemoteNode _ _) as [cerr|]; cbn -[GetSession HasSession].
      * exists []. rewrite app_nil_r. split; [done|]. apply Hshape.
        intros ef Hin. by apply not_elem_of_nil in Hin.
      * eexists. split; [done|]. apply Hshape.
        intros ef Hin. apply list_elem_of_singleton in Hin. by right.
    + destruct (HasSession _ _); cbn -[GetSession]; (eexists; split; [done|]);
        apply Hshape; intros ef Hin.
      * left. apply elem_of_cons in Hin as [->|Hin]; [by eexists _, _, _|].
        apply GetSession_elem in Hin as [sess Hin].
        apply list_elem_of_singleton in Hin. by eexists _, _, _.
      * apply list_elem_of_singleton in Hin. by right.
Qed.

(** X12: over a whole run the loop closes a connection exactly for the
    frames that fail to decode: the effects the run adds contain the close
    of [c] if and only if the loop consumed an incoming message that arrived
    on [c] and whose bytes [proto.Unmarshal] rejects. *)
Theorem loop_closes_exactly_on_malformed evs w :
  ∃ es, effects (resultWorld (beginProcessingEvents evs w)) = effects w ++ es
    ∧ ∀ c, EvClose c ∈ es ↔
           ∃ m err, IncomingMessage m ∈ consumed evs
                    ∧ ConnectionMessage.Connection m = c
                    ∧ Unmarshal (ConnectionMessage.Message m) = inr err.
Proof.
  rewrite beginProcessingEvents_handleAll. generalize (consumed evs) as l.
  intros l. revert w. induction l as [|ev l IH]; intros w.
  - exists []. rewrite app_nil_r. split; [done|]. intros c. split.
    + intros Hin. by apply not_elem_of_nil in Hin.
    + intros (m & err & Hin & _). by apply not_elem_of_nil in Hin.
  - rewrite handleAll_cons.
    destruct (dispatch_effects ev w) as (es1 & Heq1 & Hclose1 & _).
    destruct (IH (dispatch ev w)) as (es2 & Heq2 & Hclose2).
    exists (es1 ++ es2). split; [by rewrite Heq2, Heq1, app_assoc|].
    intros c. rewrite elem_of_app, Hclose1, Hclose2. split.
    + intros [(m & err & -> & Hc & Hbad)|(m & err & Hin & Hc & Hbad)];
        exists m, err; (split; [|done]); [by left | by right].
    + intros (m & err & Hin & Hc & Hbad).
      apply elem_of_cons in Hin as [<-|Hin]; [left | right]; by exists m, err.
Qed.

(** X13: over a whole run the loop asks the handshake protocol for a session
    only while handling a connect request, and only with nil or with the
    RemoteNode that the peer table holds, at the end of the run, under the
    peer id of that request. *)
Theorem loop_creates_sessions_only_on_connect evs w :
  ∃ es, effects (resultWorld (beginProcessingEvents evs w)) = effects w ++ es
    ∧ ∀ n, EvCreateSession n ∈ es →
           ∃ req, ConnectionRequest req ∈ consumed evs
                  ∧ (n = nilNode
                     ∨ peers (swarm (resultWorld (beginProcessingEvents evs w)))
                         !! NodeReq.remoteNodeId req = Some n).
Proof.
  rewrite beginProcessingEvents_handleAll. generalize (consumed evs) as l.
  intros l. revert w. induction l as [|ev l IH]; intros w.
  - exists []. rewrite app_nil_r. split; [done|].
    intros n Hin. by apply not_elem_of_nil in Hin.
  - rewrite handleAll_cons.
    destruct (dispatch_effects ev w) as (es1 & Heq1 & _ & Hsess1 & _).
    destruct (IH (dispatch ev w)) as (es2 & Heq2 & Hsess2).
    exists (es1 ++ es2). split; [by rewrite Heq2, Heq1, app_assoc|].
    intros n Hin. apply elem_of_app in Hin as [Hin|Hin].
    + apply Hsess1 in Hin as (req & -> & Hn). exists req. split; [by left|].
      destruct n as [|l0]; [by left|]. right.
      apply (handleAll_ind (λ w', peers (swarm w') !! NodeReq.remoteNodeId req
                                   = Some (nodeRef l0))).
      * intros ev0 w0. apply dispatch_peers.
      * apply dispatch_peers. unfold index in Hn.
        destruct (peers (swarm w) !! NodeReq.remoteNodeId req) as [n0|];
          cbn in Hn; [by subst n0 | discriminate].
    + apply Hsess2 in Hin as (req & Hreq & Hn). exists req. split; [by right|done].
Qed.

(** X14: over a whole run the loop never sends on a callback channel,
    whatever connect and disconnect requests it consumed, and never starts
    another copy of itself. *)
Theorem loop_never_answers_callbacks evs w :
  ∃ es, effects (resultWorld (beginProcessingEvents evs w)) = effects w ++ es
    ∧ (∀ ch resp, EvCallback ch resp ∉ es)
    ∧ EvGoProcessEvents ∉ es.
Proof.
  rewrite beginProcessingEvents_handleAll. generalize (consumed evs) as l.
  intros l. revert w. induction l as [|ev l IH]; intros w.
  - exists []. rewrite app_nil_r. split; [done|].
    split; [intros ch resp|]; apply not_elem_of_nil.
  - rewrite handleAll_cons.
    destruct (dispatch_effects ev w) as (es1 & Heq1 & _ & _ & Hcb1 & Hgo1).
    destruct (IH (dispatch ev w)) as (es2 & Heq2 & Hcb2 & Hgo2).
    exists (es1 ++ es2). split; [by rewrite Heq2, Heq1, app_assoc|].
    split; [intros ch resp|]; rewrite elem_of_app; intros [Hin|Hin];
      first [ by apply Hcb1 in Hin | by apply Hcb2 in Hin | done ].
Qed.

(** *** Events that change nothing, and how handlers compose *)

(** X15: new-connection events, connection errors, send errors and
    disconnect requests have handlers with an empty body: dropping them from
    the events received leaves the world of the run as it is. *)
Theorem loop_ignores_empty_handlers evs w :
  resultWorld (beginProcessingEvents (filter (λ ev, emptyHandler ev = false) evs) w)
  = resultWorld (beginProcessingEvents evs w).
Proof.
  revert w. induction evs as [|ev evs IH]; intros w; [done|].
  destruct ev as [b|c|m|err|err|c|r|req|req];
    first [ rewrite filter_cons_True by done; cbn; try done; apply IH
          | rewrite filter_cons_False by done; cbn; apply IH ].
Qed.

(** X16: handling the closing event of a connection a second time changes
    nothing: the handler is idempotent. *)
Theorem onConnectionClosed_idempotent (c : Connection.t) w :
  onConnectionClosed c (onConnectionClosed c w) = onConnectionClosed c w.
Proof.
  unfold onConnectionClosed, setSwarm, setConnections, setPeersByConnection. cbn.
  by rewrite !delete_delete_eq.
Qed.

(** X17: two send requests with different request ids can be handled in
    either order: the world is the same. *)
Theorem onSendMessageRequest_commute (r1 r2 : SendMessageReq.t) w :
  SendMessageReq.reqId r1 ≠ SendMessageReq.reqId r2 →
  onSendMessageRequest r1 (onSendMessageRequest r2 w)
  = onSendMessageRequest r2 (onSendMessageRequest r1 w).
Proof.
  intros Hne. unfold onSendMessageRequest, setSwarm, setPending. cbn.
  by rewrite insert_insert_ne.
Qed.

End LoopProperties.

(** ** Runs of the loop on the concrete node *)

Lemma loop_pending_last_write_witness :
  consumed DemoRun.events
  = [ ConnectionRequest Demo.goodReq; SendMsgRequest Demo.reqOld;
      NewConnection Demo.c2; IncomingMessage Demo.badMsg;
      ClosingConnection Demo.c1 ]
    ++ SendMsgRequest Demo.reqNew
       :: [ DisconnectRequest Demo.goodReq; SendMsgRequest DemoRun.reqOther ]
  ∧ pendingOutgoingMessages
      (swarm (resultWorld (beginProcessingEvents DemoRun.events Demo.w0))) !! "req-1"
    = Some Demo.reqNew.
Proof.
  split; [reflexivity|].
  apply (loop_pending_last_write DemoRun.events Demo.w0 Demo.reqNew
           [ ConnectionRequest Demo.goodReq; SendMsgRequest Demo.reqOld;
             NewConnection Demo.c2; IncomingMessage Demo.badMsg;
             ClosingConnection Demo.c1 ]
           [ DisconnectRequest Demo.goodReq; SendMsgRequest DemoRun.reqOther ]).
  - reflexivity.
  - cbn. intros Hin. apply list_elem_of_singleton in Hin. discriminate.
Defined.

Lemma loop_pending_other_ids_witness :
  sentIds (consumed DemoRun.events) = ["req-1"; "req-1"; "req-2"]
  ∧ pendingOutgoingMessages
      (swarm (resultWorld (beginProcessingEvents DemoRun.events Demo.w0))) !! "req-9"
    = pendingOutgoingMessages (swarm Demo.w0) !! "req-9".
Proof.
  split; [reflexivity|].
  apply (loop_pending_other_ids DemoRun.events Demo.w0 "req-9").
  cbn. intros Hin.
  repeat (apply elem_of_cons in Hin as [Hin|Hin]; [discriminate|]).
  by apply not_elem_of_nil in Hin.
Defined.

Lemma new_swarm_never_tracks_connections_witness :
  NewSwarm (E:=Demo.env) "0.0.0.0:7513" "local"
  = ((Some Demo.emptySwarm, None), [EvGoProcessEvents])
  ∧ connections (swarm (resultWorld (beginProcessingEvents DemoRun.events
                          (mkWorld Demo.emptySwarm [] [EvGoProcessEvents])))) = ∅
  ∧ peersByConnection (swarm (resultWorld (beginProcessingEvents DemoRun.events
                          (mkWorld Demo.emptySwarm [] [EvGoProcessEvents])))) = ∅.
Proof.
  split; [reflexivity|].
  exact (new_swarm_never_tracks_connections (E:=Demo.env)
           "0.0.0.0:7513" "local" Demo.emptySwarm [EvGoProcessEvents] []
           DemoRun.events eq_refl).
Defined.

Lemma loop_closed_connection_stays_purged_witness :
  connections (swarm Demo.w1) !! Connection.Id Demo.c1 = Some Demo.c1
  ∧ ClosingConnection Demo.c1 ∈ consumed DemoRun.events
  ∧ connections (swarm (resultWorld (beginProcessingEvents DemoRun.events Demo.w1)))
      !! Connection.Id Demo.c1 = None
  ∧ peersByConnection (swarm (resultWorld (beginProcessingEvents DemoRun.events Demo.w1)))
      !! Connection.Id Demo.c1 = None.
Proof.
  assert (ClosingConnection Demo.c1 ∈ consumed DemoRun.events) as Hin.
  { cbn. do 4 right. left. }
  split; [reflexivity|]. split; [exact Hin|].
  exact (loop_closed_connection_stays_purged DemoRun.events Demo.w1 Demo.c1 Hin).
Defined.

Lemma loop_peers_stable_witness :
  peers (swarm Demo.w1) !! "peerX" = Some (nodeRef 0)
  ∧ peers (swarm (resultWorld (beginProcessingEvents DemoRun.events Demo.w1))) !! "peerX"
    = Some (nodeRef 0).
Proof.
  split; [reflexivity|].
  exact (loop_peers_stable DemoRun.events Demo.w1 "peerX" 0 eq_refl).
Defined.

Lemma loop_peers_well_formed_witness :
  peersWellFormed Demo.w0
  ∧ peers (swarm (resultWorld (beginProcessingEvents DemoRun.events Demo.w0))) !! "peerZ"
    = Some (nodeRef 0)
  ∧ peersWellFormed (resultWorld (beginProcessingEvents DemoRun.events Demo.w0)).
Proof.
  assert (peersWellFormed Demo.w0) as Hwf.
  { intros k l Hk. cbn in Hk. by rewrite lookup_empty in Hk. }
  split; [exact Hwf|]. split; [reflexivity|].
  exact (loop_peers_well_formed DemoRun.events Demo.w0 Hwf).
Defined.

Lemma connect_twice_one_node_witness :
  peers (swarm Demo.w0) !! NodeReq.remoteNodeId Demo.goodReq = None
  ∧ nodes (onConnectionRequest (NodeReq.mk "peerZ" "" 9)
             (onConnectionRequest Demo.goodReq Demo.w0))
    = [RemoteNodeData.mk "peerZ" "10.0.0.8:7513" None]
  ∧ peers (swarm (onConnectionRequest (NodeReq.mk "peerZ" "" 9)
                    (onConnectionRequest Demo.goodReq Demo.w0)))
    = {[ "peerZ" := nodeRef 0 ]}
  ∧ effects (onConnectionRequest (NodeReq.mk "peerZ" "" 9)
               (onConnectionRequest Demo.goodReq Demo.w0))
    = [EvCreateSession nilNode; EvCreateSession (nodeRef 0)].
Proof.
  split; [reflexivity|].
  exact (connect_twice_one_node Demo.goodReq (NodeReq.mk "peerZ" "" 9) Demo.w0
           eq_refl eq_refl eq_refl).
Defined.

Lemma onSendMessageRequest_commute_witness :
  SendMessageReq.reqId Demo.reqOld ≠ SendMessageReq.reqId DemoRun.reqOther
  ∧ onSendMessageRequest Demo.reqOld (onSendMessageRequest DemoRun.reqOther Demo.w0)
    = onSendMessageRequest DemoRun.reqOther (onSendMessageRequest Demo.reqOld Demo.w0).
Proof.
  assert (SendMessageReq.reqId Demo.reqOld ≠ SendMessageReq.reqId DemoRun.reqOther)
    as Hne by discriminate.
  split; [exact Hne|].
  exact (onSendMessageRequest_commute Demo.reqOld DemoRun.reqOther Demo.w0 Hne).
Defined.
